(** * IPython Cookbook recipes 7.7 (Bayesian change-point model with PyMC)
      and 15.5 (number theory with SymPy)

    The two notebooks are straight-line scripts.  What they compute
    themselves is embedded here as Rocq functions: the piecewise rate
    array built with two NumPy slice assignments, the pandas aggregation
    that yields the per-year storm counts, the declaration of the PyMC
    nodes and the sampling schedule.  Calls whose bodies live in the
    libraries (read_csv, the sampler, SymPy's number theory) appear as
    parameters of the script or as reference models, each said so where it
    is declared. *)

From Stdlib Require Import ZArith Lia Zdivisibility.
From stdpp Require Import base tactics option list strings gmap sorting.

Local Open Scope Z_scope.

(** ** Python: integer ranges *)

(** [upfrom lo len] is lo, lo + 1, ... ([len] numbers). *)
Fixpoint upfrom (lo : Z) (len : nat) : list Z :=
  match len with
  | O => []
  | S len => lo :: upfrom (lo + 1) len
  end.

(** [range(lo, hi)]. *)
Definition range (lo hi : Z) : list Z := upfrom lo (Z.to_nat (hi - lo)).

(** ** NumPy: one-dimensional arrays, [np.empty] and slice assignment *)

Module NumPy.

Section ndarray.
Context {A : Type}.

(** [np.empty(n)] allocates [n] entries and does not write them: the
    array holds whatever the memory held.  [junk] is that content. *)
Variable junk : nat → A.

Definition empty (n : nat) : list A := junk <$> seq 0 n.

(** One bound [k] of a slice over an array of [n] entries, as
    [slice.indices] computes it for step 1: a negative bound counts from
    the end, and the result is clamped to [0, n]. *)
Definition clip (n : nat) (k : Z) : nat :=
  if k <? 0 then Z.to_nat (Z.max 0 (k + Z.of_nat n))
  else Z.to_nat (Z.min k (Z.of_nat n)).

(** The bounds of [a[start:stop]]; an omitted bound is [None]. *)
Definition slice_lo (n : nat) (start : option Z) : nat :=
  from_option (clip n) 0%nat start.
Definition slice_hi (n : nat) (stop : option Z) : nat :=
  from_option (clip n) n stop.

(** The indices [range(lo, hi)] a slice selects (none when hi <= lo). *)
Definition slice_range (n : nat) (start stop : option Z) : list nat :=
  seq (slice_lo n start) (slice_hi n stop - slice_lo n start).

(** [out[start:stop] = v] with a scalar [v]: every selected entry is
    overwritten, the others and the length are kept. *)
Definition setslice (out : list A) (start stop : option Z) (v : A) : list A :=
  foldl (λ o i, <[i:=v]> o) out (slice_range (length out) start stop).
End ndarray.

End NumPy.

(** ** Step 5 of recipe 7.7: the deterministic [rate]

<<
    @pymc.deterministic(plot=False)
    def rate(s=switchpoint, e=early_mean, l=late_mean):
        out = np.empty(len(arr))
        out[:s] = e
        out[s:] = l
        return out
>>
    [arr] is the global array of yearly counts; only its length is used. *)

Section rate.
Context {A : Type}.
Variable junk : nat → A.
Variable arr : list nat.

Definition rate (s : Z) (e l : A) : list A :=
  let out := NumPy.empty junk (length arr) in
  let out := NumPy.setslice out None (Some s) e in
  let out := NumPy.setslice out (Some s) None l in
  out.
End rate.


(** ** pandas: the storm table and the per-year aggregation *)

Module Pandas.

(** One record of the IBTrACS table as read_csv delivers it.  The script
    reads the columns [Serial_Num], [Season] (a number, the year) and
    [Basin]; a cell that is empty in the file is missing in the table
    (NaN), which is [None] here.  [other] holds the remaining cells of
    the row, by column name. *)
Record Row := {
  Serial_Num : option string;
  Season : option Z;
  Basin : option string;
  other : list (string * string)
}.

Abbreviation DataFrame := (list Row).

(** A Series: an index and the values at the same positions. *)
Record Series := { index : list Z; values : list nat }.

(** [df[mask]] with a boolean mask computed row by row. *)
Definition mask (p : Row → bool) (df : DataFrame) : DataFrame :=
  filter (λ r, p r) df.

(** [df.groupby(key)]: the rows of each key, in the order of the table.
    A row whose key is missing belongs to no group. *)
Definition groupby (key : Row → option Z) (df : DataFrame)
    : gmap Z (list Row) :=
  foldr (λ r g, match key r with
                | Some k => <[k := r :: g !!! k]> g
                | None => g
                end) ∅ df.

(** [nunique]: the number of distinct values; missing cells are not
    counted (dropna is on by default). *)
Definition nunique (xs : list (option string)) : nat :=
  length (remove_dups (omap id xs)).

(** The keys of the groups, sorted (groupby sorts them). *)
Definition sorted_keys (ks : gset Z) : list Z := merge_sort Z.le (elements ks).

(** [grouped[col].nunique()]: one entry per group, the groups in
    increasing order of their key. *)
Definition groupby_nunique (key : Row → option Z)
    (col : Row → option string) (df : DataFrame) : Series :=
  let g := groupby key df in
  let keys := sorted_keys (dom g) in
  {| index := keys; values := (λ y, nunique (col <$> g !!! y)) <$> keys |}.

End Pandas.

(** ** Exceptions

    Python raises; the script has no [try].  A computation either returns
    or raises, and sequencing stops at the first raise. *)

Inductive exn :=
  | IndexError
  | LibraryError (what : string).

Inductive result (A : Type) :=
  | Ok (a : A)
  | Raise (e : exn).
Arguments Ok {A} a.
Arguments Raise {A} e.

#[global] Instance result_ret : MRet result := λ A a, Ok a.
#[global] Instance result_bind : MBind result := λ A B f m,
  match m with
  | Ok a => f a
  | Raise e => Raise e
  end.

(** [l[i]] for a Python sequence: a negative index counts from the end,
    an index out of range raises IndexError. *)
Definition getitem {A} (l : list A) (i : Z) : result A :=
  let j := if i <? 0 then i + Z.of_nat (length l) else i in
  if j <? 0 then Raise IndexError
  else match l !! Z.to_nat j with
       | Some x => Ok x
       | None => Raise IndexError
       end.

(** ** PyMC: the nodes of the model (steps 4 to 7) *)

Module PyMC.

(** A node keeps references to its parent nodes, as the Python objects do. *)
#[local] Unset Elimination Schemes.
Inductive node :=
  | DiscreteUniform (name : string) (lower upper : Z)
  | Exponential (name : string) (beta : Z)
  | Deterministic (name : string) (parents : list (string * node)) (plot : bool)
  | Poisson (name : string) (mu : node) (value : list nat) (observed : bool).
#[local] Set Elimination Schemes.

Definition name_of (n : node) : string :=
  match n with
  | DiscreteUniform name _ _ | Exponential name _
  | Deterministic name _ _ | Poisson name _ _ _ => name
  end.

Definition is_deterministic (n : node) : bool :=
  match n with Deterministic _ _ _ => true | _ => false end.

Definition is_observed (n : node) : bool :=
  match n with Poisson _ _ _ o => o | _ => false end.

(** The random variables to be inferred: stochastic and not observed. *)
Definition is_random_variable (n : node) : bool :=
  negb (is_deterministic n) && negb (is_observed n).

(** Modelled from the spec: the support of a discrete uniform variable is
    the integer range [lower] to [upper], both ends included (the density
    itself lives in PyMC, outside the notebooks). *)
Definition in_support (n : node) (x : Z) : Prop :=
  match n with
  | DiscreteUniform _ lower upper => lower ≤ x ≤ upper
  | _ => True
  end.

(** The sampling schedule of [MCMC.sample]. *)
Record Schedule := { iter : Z; burn : Z; thin : Z }.

End PyMC.

Section model.
Import PyMC.
Variable arr : list nat.

Definition switchpoint : node :=
  DiscreteUniform "switchpoint" 0 (Z.of_nat (length arr)).
Definition early_mean : node := Exponential "early_mean" 1.
Definition late_mean : node := Exponential "late_mean" 1.

(** The node that the decorator makes of the function [rate]: its
    parents are the defaults of the three arguments. *)
Definition rate_node : node :=
  Deterministic "rate"
    [("s", switchpoint); ("e", early_mean); ("l", late_mean)] false.

Definition storms : node := Poisson "storms" rate_node arr true.

Definition model : list node :=
  [switchpoint; early_mean; late_mean; rate_node; storms].
End model.

Definition schedule : PyMC.Schedule :=
  {| PyMC.iter := 10000; PyMC.burn := 1000; PyMC.thin := 10 |}.

(** ** The sampler behind [mcmc.sample] *)

Module MCMC.

Section sampler.
Import PyMC.

(** The state of the chain (current values, random generator, tuning). *)
Variable chain : Type.
(** What one tally appends to the traces. *)
Variable T : Type.
(** One iteration: every step method proposes and accepts or rejects. *)
Variable step : chain → result chain.
Variable tally : chain → T.

(** Modelled from the spec: the sampling engine is PyMC's, an external
    collaborator of the notebook.  It runs the chain for the [iter]
    iterations of the schedule and records the state of an iteration once
    the first [burn] iterations are over, one iteration in every [thin].
    [retained sch i] tells whether iteration [i] is recorded. *)
Definition retained (sch : Schedule) (i : Z) : bool :=
  (burn sch <=? i) && (i mod thin sch =? 0).

(** Modelled from the spec: the iterations [i], [i + 1], ... ([todo] of
    them) of the engine, each one step of the chain followed by a tally
    when the iteration is retained.  A step that raises ends the run. *)
Fixpoint loop (sch : Schedule) (todo : nat) (i : Z) (st : chain)
    (trace : list T) : result (list T) :=
  match todo with
  | O => mret trace
  | S todo =>
      st' ← step st;
      loop sch todo (i + 1) st'
        (if retained sch i then trace ++ [tally st'] else trace)
  end.

(** Modelled from the spec: [mcmc.sample(iter, burn, thin)], the whole
    run from iteration 0, which returns the trace. *)
Definition sample (sch : Schedule) (st0 : chain) : result (list T) :=
  loop sch (Z.to_nat (iter sch)) 0 st0 [].

(** The state after [k] iterations from [st], when none of them raises. *)
Fixpoint steps (k : nat) (st : chain) : result chain :=
  match k with
  | O => mret st
  | S k => st' ← step st; steps k st'
  end.
End sampler.

Arguments retained sch i : assert.
Arguments loop {chain T} step tally sch todo i st trace.
Arguments sample {chain T} step tally sch st0.
Arguments steps {chain} step k st.

End MCMC.

(** ** Recipe 7.7 as a script *)

Section notebook.
Import Pandas PyMC.

(** Floating-point values and the state of the sampler are the libraries'. *)
Variable F : Type.
Variable chain : Type.

Record Traces := {
  trace_switchpoint : list Z;
  trace_early_mean : list F;
  trace_late_mean : list F
}.

(** The four figures the notebook draws, each with the data it is given. *)
Inductive figure :=
  | FigCounts (years : list Z) (arr : list nat) (xlim : Z * Z)
  | FigChains (tr : Traces)
  | FigHistograms (y0 : Z) (tr : Traces)
  | FigFit (years : list Z) (arr : list nat) (yp em lm : F) (xlim : Z * Z).

(** The library calls of the script; those that do input, output or
    sampling may raise.
    - [read_csv path]: [pd.read_csv(path, delim_whitespace=False)];
    - [show fig]: the matplotlib calls of one plotting cell;
    - [mcmc_init nodes]: [pymc.MCMC(pymc.Model(nodes))], the initial chain;
    - [mcmc_step]: one iteration of the sampler;
    - [current]: the values of switchpoint, early_mean and late_mean that
      a tally records;
    - [mean_int], [mean], [add_int]: NumPy's [mean] and float addition. *)
Record Library := {
  read_csv : string → result DataFrame;
  show : figure → result ();
  mcmc_init : list node → result chain;
  mcmc_step : chain → result chain;
  current : chain → Z * F * F;
  mean_int : list Z → F;
  mean : list F → F;
  add_int : Z → F → F
}.

(** The global variables of the notebook after its last cell. *)
Record Globals := {
  g_df : DataFrame;
  g_cnt : Series;
  g_years : list Z;
  g_y0 : Z;
  g_y1 : Z;
  g_arr : list nat;
  g_model : list node;
  g_traces : Traces;
  g_figures : list figure;
  g_yp : F;
  g_em : F;
  g_lm : F
}.

Definition csv_path : string := "data/Allstorms.ibtracs_wmo.v03r05.csv".

(** Step 3:
<<
    cnt = df[df['Basin'] == ' NA'].groupby('Season')['Serial_Num'].nunique()
>> *)
Definition north_atlantic (r : Row) : bool :=
  match Basin r with
  | Some b => String.eqb b " NA"
  | None => false
  end.

Definition cnt (df : DataFrame) : Series :=
  groupby_nunique Season Serial_Num (mask north_atlantic df).

Definition traces_of (samples : list (Z * F * F)) : Traces :=
  {| trace_switchpoint := (λ x, x.1.1) <$> samples;
     trace_early_mean := (λ x, x.1.2) <$> samples;
     trace_late_mean := (λ x, x.2) <$> samples |}.

(** The cells in order, as Run All executes them: each [←] is a call that
    may raise, and a raise ends the run. *)
Definition notebook (L : Library) : result Globals :=
  df ← read_csv L csv_path;
  let cnt := cnt df in
  let years := index cnt in
  y0 ← getitem years 0;
  y1 ← getitem years (-1);
  let arr := values cnt in
  _ ← show L (FigCounts years arr (y0, y1));
  let model := model arr in
  mcmc ← mcmc_init L model;
  samples ← MCMC.sample (mcmc_step L) (current L) schedule mcmc;
  let tr := traces_of samples in
  _ ← show L (FigChains tr);
  _ ← show L (FigHistograms y0 tr);
  let yp := add_int L y0 (mean_int L (trace_switchpoint tr)) in
  let em := mean L (trace_early_mean tr) in
  let lm := mean L (trace_late_mean tr) in
  _ ← show L (FigFit years arr yp em lm (y0, y1));
  mret {| g_df := df; g_cnt := cnt; g_years := years; g_y0 := y0; g_y1 := y1;
          g_arr := arr; g_model := model; g_traces := tr;
          g_figures := [FigCounts years arr (y0, y1); FigChains tr;
                        FigHistograms y0 tr;
                        FigFit years arr yp em lm (y0, y1)];
          g_yp := yp; g_em := em; g_lm := lm |}.

(** The same libraries over another file system. *)
Definition with_read_csv (L : Library) (f : string → result DataFrame)
    : Library :=
  {| read_csv := f; show := show L; mcmc_init := mcmc_init L;
     mcmc_step := mcmc_step L; current := current L;
     mean_int := mean_int L; mean := mean L; add_int := add_int L |}.

(** The three columns the notebook names. *)
Definition named_columns (r : Row)
    : option string * option Z * option string :=
  (Serial_Num r, Season r, Basin r).
End notebook.

Arguments trace_switchpoint {F} _.
Arguments trace_early_mean {F} _.
Arguments trace_late_mean {F} _.
Arguments FigCounts {F} years arr xlim.
Arguments FigChains {F} tr.
Arguments FigHistograms {F} y0 tr.
Arguments FigFit {F} years arr yp em lm xlim.
Arguments read_csv {F chain} _ _.
Arguments show {F chain} _ _.
Arguments mcmc_init {F chain} _ _.
Arguments mcmc_step {F chain} _ _.
Arguments current {F chain} _ _.
Arguments g_df {F} _.
Arguments g_cnt {F} _.
Arguments g_years {F} _.
Arguments g_y0 {F} _.
Arguments g_y1 {F} _.
Arguments g_arr {F} _.
Arguments g_model {F} _.
Arguments g_traces {F} _.
Arguments g_figures {F} _.
Arguments g_yp {F} _.
Arguments g_em {F} _.
Arguments g_lm {F} _.
Arguments traces_of {F} samples.
Arguments notebook {F chain} L.
Arguments with_read_csv {F chain} L f.

(** ** Recipe 15.5: the SymPy calls *)

Module SymPy.

(** Modelled from the spec: [nt.isprime] is SymPy's; the notebook only
    calls it.  A number is prime when it is at least 2 and no number from
    2 up to its square root divides it. *)
Definition isprime (n : Z) : bool :=
  (2 <=? n) && forallb (λ d, negb (n mod d =? 0)) (range 2 (Z.sqrt n + 1)).

(** Modelled from the spec: [nt.primepi] is SymPy's; the glossary has it
    as the count of primes ≤ x. *)
Definition primepi (x : Z) : nat :=
  length (filter (λ p, isprime p) (range 2 (x + 1))).

(** [x] leaves the remainder [r] modulo [m] for every pair [(r, m)]. *)
Definition satisfies (x : Z) (pairs : list (Z * Z)) : bool :=
  forallb (λ p, x mod p.2 =? p.1 mod p.2) pairs.

(** Modelled from the spec: [solve_congruence] is SymPy's.  Given pairs
    (remainder, modulus) it returns the least non-negative solution of the
    simultaneous congruences together with the modulus of the solution
    set, the least common multiple of the moduli, or nothing when the
    congruences have no common solution. *)
Definition solve_congruence (pairs : list (Z * Z)) : option (Z * Z) :=
  let m := foldr (λ p acc, Z.lcm p.2 acc) 1 pairs in
  x ← List.find (λ x, satisfies x pairs) (range 0 m);
  Some (x, m).

End SymPy.

(** ** Sample data for the examples *)

Module Demo.
Import Pandas.

Definition storm (serial : string) (season : Z) (basin : string) : Row :=
  {| Serial_Num := Some serial; Season := Some season; Basin := Some basin;
     other := [("Name", "NOT NAMED")] |}.

(** Three North Atlantic storms in two seasons (one of them on two rows)
    and one storm of another basin. *)
Definition table : DataFrame :=
  [ storm "1951122N12300" 1951 " NA"; storm "1950230N15301" 1950 " NA";
    storm "1951122N12300" 1951 " NA"; storm "1951150N10250" 1951 " EP";
    storm "1951241N14320" 1951 " NA" ].

Definition no_such_file : exn := LibraryError "No such file or directory".

(** A file system that holds the table at the path of the notebook. *)
Definition disk (path : string) : result DataFrame :=
  if String.eqb path csv_path then Ok table else Raise no_such_file.

(** Libraries whose chain is a counter and whose samples are constant. *)
Definition library (fs : string → result DataFrame) : Library Z nat :=
  {| read_csv := fs; show := λ _, Ok ();
     mcmc_init := λ _, Ok 0%nat; mcmc_step := λ c, Ok (S c);
     current := λ c, (1, 2, 3);
     mean_int := λ _, 1; mean := λ xs, default 0 (head xs);
     add_int := Z.add |}.

End Demo.

(** ** Further readings of the two recipes *)

(** What the aggregation tells apart: the (Season, Serial_Num) pairs of
    the rows of the North Atlantic basin that have a Season; the
    Serial_Num of such a row may be missing. *)
Definition storm_seasons (df : Pandas.DataFrame)
    : list (Z * option string) :=
  omap (λ r, (λ y, (y, Pandas.Serial_Num r)) <$> Pandas.Season r)
    (Pandas.mask north_atlantic df).

(** The storms on record: the pairs of a Season and a Serial_Num that
    are both present. *)
Definition recorded_storms (df : Pandas.DataFrame) : list (Z * string) :=
  omap (λ p, (λ s, (p.1, s)) <$> p.2) (storm_seasons df).

(** Recipe 15.5, the plot of the prime-counting function:
<<
    x = np.arange(2, 10000)
    plt.plot(x, list(map(nt.primepi, x)), ...)
>> *)
Module PrimePlot.

Definition x : list Z := range 2 10000.


End PrimePlot.

Module DemoMore.
Import Pandas.

(** A table without a single North Atlantic row: the basin is written
    without the leading blank, or is another one. *)
Definition elsewhere : DataFrame :=
  [ Demo.storm "1951150N10250" 1951 " EP"; Demo.storm "1952011N20270" 1952 "NA" ].

Definition elsewhere_disk (path : string) : result DataFrame :=
  if String.eqb path csv_path then Ok elsewhere else Raise Demo.no_such_file.

(** The sample table after a year without storms and one more row of a
    storm already listed. *)
Definition later : DataFrame :=
  Demo.table ++ [ Demo.storm "1953201N13310" 1953 " NA";
                  Demo.storm "1950230N15301" 1950 " NA" ].

(** The sample table in another order, with a row repeated and rows of
    other basins added. *)
Definition shuffled : DataFrame :=
  [ Demo.storm "1951241N14320" 1951 " NA"; Demo.storm "1951122N12300" 1951 " NA";
    Demo.storm "1960001N10100" 1960 " SI"; Demo.storm "1950230N15301" 1950 " NA";
    Demo.storm "1951241N14320" 1951 " NA" ].


(** The sample table with a row of 1952 whose Serial_Num cell is empty. *)
Definition unnumbered : DataFrame :=
  Demo.table ++ [ {| Serial_Num := None; Season := Some 1952;
                     Basin := Some " NA"; other := [] |} ].

Definition zero_probability : exn := LibraryError "ZeroProbability".

(** Libraries whose MCMC constructor raises. *)
Definition library_without_sampler : Library Z nat :=
  {| read_csv := Demo.disk; show := λ _, Ok ();
     mcmc_init := λ _, Raise zero_probability; mcmc_step := λ c, Ok (S c);
     current := λ c, (1, 2, 3);
     mean_int := λ _, 1; mean := λ xs, default 0 (head xs);
     add_int := Z.add |}.

End DemoMore.

(** * Properties *)

(** *** Slice assignment, entry by entry *)

Section ndarray_facts.
Context {A : Type}.
Implicit Types (out : list A) (v : A) (i lo len n : nat).

Lemma length_fill out v (idx : list nat) :
  length (foldl (λ o i, <[i:=v]> o) out idx) = length out.
Proof.
  revert out. induction idx as [|j idx IH]; intros out; simpl; [done|].
  by rewrite IH, length_insert.
Qed.

Lemma lookup_fill out v lo len i :
  foldl (λ o j, <[j:=v]> o) out (seq lo len) !! i
  = if decide ((lo ≤ i < lo + len)%nat ∧ (i < length out)%nat)
    then Some v else out !! i.
Proof.
  revert out lo. induction len as [|len IH]; intros out lo; simpl.
  - case_decide; [lia|done].
  - rewrite IH, length_insert.
    destruct (decide (i = lo)) as [->|Hne].
    + destruct (decide (lo < length out)%nat).
      * rewrite list_lookup_insert_eq by done.
        repeat case_decide; try done; lia.
      * rewrite list_insert_ge by lia.
        repeat case_decide; try done; lia.
    + rewrite list_lookup_insert_ne by done.
      repeat case_decide; try done; lia.
Qed.

Lemma length_setslice out start stop v :
  length (NumPy.setslice out start stop v) = length out.
Proof. apply length_fill. Qed.

Lemma clip_le n k : (NumPy.clip n k ≤ n)%nat.
Proof. unfold NumPy.clip. destruct (k <? 0) eqn:E; lia. Qed.

Lemma clip_id n k : 0 ≤ k ≤ Z.of_nat n → NumPy.clip n k = Z.to_nat k.
Proof. intros H. unfold NumPy.clip. destruct (k <? 0) eqn:E; lia. Qed.

Lemma lookup_empty (junk : nat → A) n i :
  (i < n)%nat → NumPy.empty junk n !! i = Some (junk i).
Proof.
  intros H. unfold NumPy.empty.
  rewrite list_lookup_fmap, lookup_seq_lt by done. done.
Qed.

Lemma length_empty (junk : nat → A) n : length (NumPy.empty junk n) = n.
Proof. unfold NumPy.empty. by rewrite length_fmap, length_seq. Qed.
End ndarray_facts.


(** *** The rate array *)

Section rate_facts.
Context {A : Type}.
Variable junk : nat → A.
Variable arr : list nat.
Implicit Types (s : Z) (e l : A) (i : nat).

Lemma length_rate s e l : length (rate junk arr s e l) = length arr.
Proof.
  unfold rate. by rewrite !length_setslice, length_empty.
Qed.

(** Whatever [s] is, both slices cut the array at the same clamped index. *)
Lemma lookup_rate s e l i :
  (i < length arr)%nat →
  rate junk arr s e l !! i
  = Some (if decide (i < NumPy.clip (length arr) s)%nat then e else l).
Proof.
  intros Hi. unfold rate, NumPy.setslice, NumPy.slice_range.
  rewrite !length_fill, !length_empty. simpl.
  rewrite !lookup_fill, !length_fill, length_empty.
  pose proof (clip_le (length arr) s).
  rewrite lookup_empty by done.
  repeat case_decide; try done; lia.
Qed.

Lemma rate_segments s e l :
  rate junk arr s e l
  = replicate (NumPy.clip (length arr) s) e
    ++ replicate (length arr - NumPy.clip (length arr) s) l.
Proof.
  pose proof (clip_le (length arr) s) as Hc.
  apply list_eq. intros i.
  destruct (decide (i < length arr)%nat) as [Hi|Hi].
  - rewrite lookup_rate by done. case_decide.
    + rewrite lookup_app_l by (rewrite length_replicate; lia).
      by rewrite lookup_replicate_2.
    + rewrite lookup_app_r by (rewrite length_replicate; lia).
      rewrite length_replicate, lookup_replicate_2 by lia. done.
  - rewrite !lookup_ge_None_2; [done| |].
    + rewrite length_app, !length_replicate. lia.
    + rewrite length_rate. lia.
Qed.
End rate_facts.

(** C1. For an integer switch point s with 0 <= s <= len(arr) and values
    e and l, rate returns an array of length len(arr) made of two
    contiguous segments that meet at s: every entry of index i < s is e and
    every entry of index i >= s is l. *)
Theorem rate_partitions_at_switchpoint {A : Type} (junk : nat → A)
    (arr : list nat) (s : Z) (e l : A) :
  0 ≤ s ≤ Z.of_nat (length arr) →
  length (rate junk arr s e l) = length arr
  ∧ rate junk arr s e l
    = replicate (Z.to_nat s) e ++ replicate (length arr - Z.to_nat s) l
  ∧ ∀ i : nat, (i < length arr)%nat →
      (Z.of_nat i < s → rate junk arr s e l !! i = Some e)
      ∧ (s ≤ Z.of_nat i → rate junk arr s e l !! i = Some l).
Proof.
  intros Hs. split; [apply length_rate|]. split.
  - by rewrite rate_segments, clip_id.
  - intros i Hi. rewrite lookup_rate, clip_id by done.
    split; intros; case_decide; done || lia.
Qed.

Lemma rate_partitions_at_switchpoint_witness :
  rate (λ _, 0) [3; 1; 4; 1; 5]%nat 2 7 9 = [7; 7; 9; 9; 9].
Proof.
  destruct (rate_partitions_at_switchpoint (λ _, 0) [3; 1; 4; 1; 5]%nat 2 7 9)
    as (_ & H & _); [simpl; lia|].
  exact H.
Defined.

(** C9. For every s in the support 0..len(arr) of the switch point (upper
    end included) the two slice assignments stay within the array and
    between them write every entry, so that nothing of what np.empty left
    in memory is returned; for s = len(arr) the whole array is early_mean,
    for s = 0 it is late_mean. *)
Theorem rate_writes_every_entry {A : Type} (junk : nat → A)
    (arr : list nat) (s : Z) (e l : A) :
  PyMC.in_support (switchpoint arr) s →
  let n := length arr in
  (* the bound is used as it is: no clamping, no wrap from the end *)
  Z.of_nat (NumPy.clip n s) = s
  (* every index written exists *)
  ∧ (∀ i, i ∈ NumPy.slice_range n None (Some s)
          ∨ i ∈ NumPy.slice_range n (Some s) None → (i < n)%nat)
  (* every index is written, by exactly one of the two assignments *)
  ∧ (∀ i, (i < n)%nat →
       (i ∈ NumPy.slice_range n None (Some s) ∧ (Z.of_nat i < s))
       ∨ (i ∈ NumPy.slice_range n (Some s) None ∧ s ≤ Z.of_nat i))
  (* the result does not depend on the content np.empty started from *)
  ∧ (∀ junk' : nat → A, rate junk' arr s e l = rate junk arr s e l)
  ∧ (∀ i x, rate junk arr s e l !! i = Some x → x = e ∨ x = l)
  ∧ (s = Z.of_nat n → rate junk arr s e l = replicate n e)
  ∧ (s = 0 → rate junk arr s e l = replicate n l).
Proof.
  simpl. intros Hs. pose proof (clip_id (length arr) s Hs) as Hc.
  unfold NumPy.slice_range, NumPy.slice_lo, NumPy.slice_hi. simpl.
  rewrite Hc. repeat split.
  - lia.
  - intros i [Hi|Hi]; apply elem_of_seq in Hi; lia.
  - intros i Hi. destruct (decide (Z.of_nat i < s)).
    + left. split; [apply elem_of_seq|]; lia.
    + right. split; [apply elem_of_seq|]; lia.
  - intros junk'. by rewrite !rate_segments.
  - intros i x. rewrite rate_segments. intros Hx.
    apply list_elem_of_lookup_2, elem_of_app in Hx.
    destruct Hx as [Hx|Hx]; apply elem_of_replicate in Hx; tauto.
  - intros ->. rewrite rate_segments, Hc, Nat2Z.id, Nat.sub_diag.
    simpl. by rewrite app_nil_r.
  - intros ->. rewrite rate_segments, Hc. simpl. by rewrite Nat.sub_0_r.
Qed.

Lemma rate_writes_every_entry_witness :
  rate (λ _, 0) [3; 1; 4]%nat 3 7 9 = [7; 7; 7]
  ∧ rate (λ _, 0) [3; 1; 4]%nat 0 7 9 = [9; 9; 9].
Proof.
  split.
  - destruct (rate_writes_every_entry (λ _, 0) [3; 1; 4]%nat 3 7 9)
      as (_ & _ & _ & _ & _ & H & _); [simpl; lia|].
    exact (H eq_refl).
  - destruct (rate_writes_every_entry (λ _, 0) [3; 1; 4]%nat 0 7 9)
      as (_ & _ & _ & _ & _ & _ & H); [simpl; lia|].
    exact (H eq_refl).
Defined.

(** *** Number theory *)

Section range_facts.

Lemma elem_of_upfrom lo len d :
  d ∈ upfrom lo len ↔ lo ≤ d < lo + Z.of_nat len.
Proof.
  revert lo. induction len as [|len IH]; intros lo; simpl.
  - rewrite elem_of_nil. lia.
  - rewrite elem_of_cons, IH. lia.
Qed.

Lemma elem_of_range lo hi d : d ∈ range lo hi ↔ lo ≤ d < hi.
Proof. unfold range. rewrite elem_of_upfrom. lia. Qed.

Lemma NoDup_upfrom lo len : NoDup (upfrom lo len).
Proof.
  revert lo. induction len as [|len IH]; intros lo; simpl; constructor.
  - rewrite elem_of_upfrom. lia.
  - apply IH.
Qed.

Lemma NoDup_range lo hi : NoDup (range lo hi).
Proof. apply NoDup_upfrom. Qed.
End range_facts.

Section sympy_facts.
Import SymPy.

Lemma no_divisor_spec n k :
  forallb (λ d, negb (n mod d =? 0)) (range 2 k) = true
  ↔ ∀ d, 2 ≤ d < k → ¬ (d | n).
Proof.
  rewrite forallb_forall. split.
  - intros H d Hd Hdiv. specialize (H d).
    rewrite <- list_elem_of_In, elem_of_range in H. specialize (H Hd).
    apply negb_true_iff, Z.eqb_neq in H. apply H.
    apply Z.mod_divide in Hdiv; [done|lia].
  - intros H d Hd. rewrite <- list_elem_of_In, elem_of_range in Hd.
    apply negb_true_iff, Z.eqb_neq. intros Hm.
    apply (H d Hd). apply Z.mod_divide; [lia|done].
Qed.

(** Trial division up to the square root decides primality. *)
Lemma isprime_spec n : isprime n = true ↔ Z.prime n.
Proof.
  unfold isprime. rewrite andb_true_iff, Z.leb_le, no_divisor_spec.
  unfold Z.prime. split.
  - intros [Hn H]. split; [lia|]. intros d Hd [q Hq].
    pose proof (Z.sqrt_spec n ltac:(lia)) as Hs. simpl in Hs.
    destruct (decide (d ≤ Z.sqrt n)) as [Hle|Hgt].
    + apply (H d); [lia|]. by exists q.
    + assert (2 ≤ q) by nia.
      apply (H q); [nia|]. exists d. lia.
  - intros [Hn H]. split; [lia|]. intros d Hd. apply H.
    pose proof (Z.sqrt_spec n ltac:(lia)) as Hs. simpl in Hs. nia.
Qed.

(** [primepi x] is the size of the set of primes up to x. *)
Lemma primepi_counts x :
  ∃ ps : list Z,
    NoDup ps ∧ (∀ p, p ∈ ps ↔ Z.prime p ∧ p ≤ x) ∧ primepi x = length ps.
Proof.
  exists (filter (λ p, isprime p) (range 2 (x + 1))). split; [|split].
  - apply NoDup_filter, NoDup_range.
  - intros p. rewrite list_elem_of_filter, elem_of_range, Is_true_true, isprime_spec.
    split; [intros [? ?]; split; [done|lia]|].
    intros [Hp ?]. split; [done|]. apply Z.prime_ge_2 in Hp. lia.
  - done.
Qed.
End sympy_facts.

(** C7. primepi(2011) is the number of primes p with p <= 2011, and since
    2011 is prime (what isprime(2011) answers) that number counts 2011
    itself: it is 305, one more than the number of primes below 2011. *)
Theorem primepi_2011_counts_2011 :
  SymPy.isprime 2011 = true
  ∧ Z.prime 2011
  ∧ SymPy.primepi 2011 = 305%nat
  ∧ SymPy.primepi 2011 = S (SymPy.primepi 2010)
  ∧ ∃ ps : list Z,
      NoDup ps ∧ (∀ p, p ∈ ps ↔ Z.prime p ∧ p ≤ 2011)
      ∧ 2011 ∈ ps ∧ SymPy.primepi 2011 = length ps.
Proof.
  assert (Hp : SymPy.isprime 2011 = true) by (vm_compute; reflexivity).
  split; [done|]. split; [by apply isprime_spec|].
  split; [vm_compute; reflexivity|]. split; [vm_compute; reflexivity|].
  destruct (primepi_counts 2011) as (ps & Hnd & Hin & Hlen).
  exists ps. split; [done|]. split; [done|]. split; [|done].
  apply Hin. split; [by apply isprime_spec|lia].
Qed.

(** C8. solve_congruence((1, 3), (2, 4), (3, 5)) returns (58, 60): 58
    leaves the remainders 1, 2 and 3 modulo 3, 4 and 5, 60 is the least
    common multiple of the moduli, and the solutions of the three
    congruences are exactly the numbers 58 + 60 k. *)
Theorem solve_congruence_marbles :
  SymPy.solve_congruence [(1, 3); (2, 4); (3, 5)] = Some (58, 60)
  ∧ 58 mod 3 = 1 ∧ 58 mod 4 = 2 ∧ 58 mod 5 = 3
  ∧ Z.lcm 3 (Z.lcm 4 5) = 60
  ∧ ∀ x : Z, (x mod 3 = 1 ∧ x mod 4 = 2 ∧ x mod 5 = 3) ↔ ∃ k : Z, x = 58 + 60 * k.
Proof.
  repeat split; try (vm_compute; reflexivity).
  - intros (H3 & H4 & H5). exists ((x - 58) / 60).
    pose proof (Z.div_mod (x - 58) 60 ltac:(lia)) as Hd.
    assert ((x - 58) mod 60 = 0); [|lia].
    pose proof (Z.mod_pos_bound (x - 58) 60 ltac:(lia)).
    pose proof (Z.div_mod x 3 ltac:(lia)).
    pose proof (Z.div_mod x 4 ltac:(lia)).
    pose proof (Z.div_mod x 5 ltac:(lia)).
    lia.
  - destruct H as [k ->].
    replace (58 + 60 * k) with (1 + (19 + 20 * k) * 3) by lia.
    by rewrite Z.mod_add.
  - destruct H as [k ->].
    replace (58 + 60 * k) with (2 + (14 + 15 * k) * 4) by lia.
    by rewrite Z.mod_add.
  - destruct H as [k ->].
    replace (58 + 60 * k) with (3 + (11 + 12 * k) * 5) by lia.
    by rewrite Z.mod_add.
Qed.

(** *** The per-year counts *)

Section pandas_facts.
Import Pandas.
Implicit Types (df : DataFrame) (key : Row → option Z) (y : Z) (r : Row).

Lemma groupby_cons_Some key r df k :
  key r = Some k →
  groupby key (r :: df) = <[k := r :: groupby key df !!! k]> (groupby key df).
Proof. intros H. unfold groupby. simpl. by rewrite H. Qed.

Lemma groupby_cons_None key r df :
  key r = None → groupby key (r :: df) = groupby key df.
Proof. intros H. unfold groupby. simpl. by rewrite H. Qed.

Lemma groupby_lookup_total key df y :
  groupby key df !!! y = filter (λ r, key r = Some y) df.
Proof.
  induction df as [|r df IH].
  - simpl. by rewrite lookup_total_empty.
  - destruct (key r) as [k|] eqn:Hk.
    + rewrite (groupby_cons_Some _ _ _ _ Hk).
      destruct (decide (k = y)) as [->|Hne].
      * rewrite lookup_total_insert_eq, filter_cons_True by done.
        by rewrite IH.
      * rewrite lookup_total_insert_ne, filter_cons_False by congruence.
        done.
    + rewrite (groupby_cons_None _ _ _ Hk), filter_cons_False by congruence.
      done.
Qed.

Lemma dom_groupby key df : dom (groupby key df) = list_to_set (omap key df).
Proof.
  induction df as [|r df IH].
  - simpl. by rewrite dom_empty_L.
  - destruct (key r) as [k|] eqn:Hk.
    + rewrite (groupby_cons_Some _ _ _ _ Hk), dom_insert_L, IH.
      simpl. by rewrite Hk.
    + rewrite (groupby_cons_None _ _ _ Hk), IH. simpl. by rewrite Hk.
Qed.

Lemma groupby_nunique_unfold key col df :
  groupby_nunique key col df
  = {| index := sorted_keys (list_to_set (omap key df));
       values := (λ y, nunique (col <$> filter (λ r, key r = Some y) df))
                 <$> sorted_keys (list_to_set (omap key df)) |}.
Proof.
  unfold groupby_nunique. simpl. rewrite dom_groupby. f_equal.
  apply list_fmap_ext. intros i y _. by rewrite groupby_lookup_total.
Qed.

Lemma elem_of_sorted_keys (ks : gset Z) y : y ∈ sorted_keys ks ↔ y ∈ ks.
Proof.
  unfold sorted_keys. by rewrite merge_sort_Permutation, elem_of_elements.
Qed.

Lemma NoDup_sorted_keys (ks : gset Z) : NoDup (sorted_keys ks).
Proof.
  unfold sorted_keys. rewrite merge_sort_Permutation. apply NoDup_elements.
Qed.

Lemma StronglySorted_le_lt (l : list Z) :
  StronglySorted Z.le l → NoDup l → StronglySorted Z.lt l.
Proof.
  induction 1 as [|x l Hs IH Hall]; intros Hnd; constructor.
  - apply IH. by apply NoDup_cons in Hnd as [_ ?].
  - apply NoDup_cons in Hnd as [Hx _].
    rewrite Forall_forall in Hall |- *. intros z Hz.
    specialize (Hall z Hz). assert (x ≠ z) by (intros ->; done). lia.
Qed.

Lemma sorted_keys_increasing (ks : gset Z) :
  StronglySorted Z.lt (sorted_keys ks).
Proof.
  apply StronglySorted_le_lt; [|apply NoDup_sorted_keys].
  apply StronglySorted_merge_sort; apply _.
Qed.

Lemma StronglySorted_lookup_lt (l : list Z) i j x z :
  StronglySorted Z.lt l → l !! i = Some x → l !! j = Some z →
  (i < j)%nat → x < z.
Proof.
  intros Hs. revert i j. induction Hs as [|w l Hs IH Hall]; intros i j Hi Hj Hij.
  - done.
  - destruct j as [|j]; [lia|]. simpl in Hj. destruct i as [|i]; simpl in Hi.
    + injection Hi as ->. rewrite Forall_forall in Hall.
      apply Hall. by eapply list_elem_of_lookup_2.
    + apply (IH i j); [done|done|lia].
Qed.

Lemma getitem_first {A} (l : list A) :
  getitem l 0 = from_option Ok (Raise IndexError) (head l).
Proof. unfold getitem. simpl. by destruct l. Qed.

Lemma getitem_last {A} (l : list A) :
  getitem l (-1) = from_option Ok (Raise IndexError) (last l).
Proof.
  unfold getitem. rewrite last_lookup. destruct l as [|x l]; [done|].
  change (-1 <? 0) with true. cbv iota.
  destruct (Z.ltb_spec (-1 + Z.of_nat (length (x :: l))) 0) as [Hlt|_].
  { simpl length in Hlt. lia. }
  replace (Z.to_nat (-1 + Z.of_nat (length (x :: l))))
    with (pred (length (x :: l))) by (simpl length; lia).
  by destruct (_ !! _).
Qed.

Lemma north_atlantic_spec r : north_atlantic r = true ↔ Basin r = Some " NA".
Proof.
  unfold north_atlantic. destruct (Basin r) as [b|]; [|done].
  rewrite String.eqb_eq. split; congruence.
Qed.

Lemma elem_of_mask df r :
  r ∈ mask north_atlantic df ↔ r ∈ df ∧ Basin r = Some " NA".
Proof.
  unfold mask. rewrite list_elem_of_filter, Is_true_true, north_atlantic_spec.
  tauto.
Qed.

Lemma cnt_unfold df :
  cnt df
  = let na := mask north_atlantic df in
    {| index := sorted_keys (list_to_set (omap Season na));
       values := (λ y, nunique (Serial_Num
                                  <$> filter (λ r, Season r = Some y) na))
                 <$> sorted_keys (list_to_set (omap Season na)) |}.
Proof. apply groupby_nunique_unfold. Qed.

Lemma index_cnt df :
  index (cnt df) = sorted_keys (list_to_set (omap Season (mask north_atlantic df))).
Proof. by rewrite cnt_unfold. Qed.

Lemma values_cnt df :
  values (cnt df)
  = (λ y, nunique (Serial_Num <$> filter (λ r, Season r = Some y)
                                    (mask north_atlantic df)))
    <$> index (cnt df).
Proof. by rewrite cnt_unfold. Qed.

Lemma index_cnt_increasing df : StronglySorted Z.lt (index (cnt df)).
Proof. rewrite index_cnt. apply sorted_keys_increasing. Qed.

Lemma length_values_cnt df : length (values (cnt df)) = length (index (cnt df)).
Proof. by rewrite values_cnt, length_fmap. Qed.

(** The years of the series are the Seasons of the ' NA' rows. *)
Lemma elem_of_index_cnt_row df y :
  y ∈ index (cnt df) ↔ ∃ r, r ∈ df ∧ Basin r = Some " NA" ∧ Season r = Some y.
Proof.
  rewrite index_cnt, elem_of_sorted_keys, elem_of_list_to_set, list_elem_of_omap.
  split.
  - intros (r & Hr%elem_of_mask & Hy). exists r. tauto.
  - intros (r & Hr & Hb & Hy). exists r. split; [|done]. by apply elem_of_mask.
Qed.

(** The rows of a year, and the serial numbers among them. *)
Lemma elem_of_rows_of_year df y r :
  r ∈ filter (λ r, Season r = Some y) (mask north_atlantic df)
  ↔ r ∈ df ∧ Basin r = Some " NA" ∧ Season r = Some y.
Proof. rewrite list_elem_of_filter, elem_of_mask. tauto. Qed.

Lemma elem_of_present {A} (xs : list (option A)) (x : A) :
  x ∈ omap id xs ↔ Some x ∈ xs.
Proof.
  rewrite list_elem_of_omap. split.
  - intros (o & Ho & Heq). simpl in Heq. by subst o.
  - intros H. by exists (Some x).
Qed.

Lemma omap_fmap_id {A B} (f : A → option B) (l : list A) :
  omap f l = omap id (f <$> l).
Proof.
  induction l as [|a l IH]; [done|].
  simpl. change (list_omap A B f l) with (omap f l).
  change (list_omap (option B) B id (list_fmap A (option B) f l))
    with (omap id (f <$> l)).
  rewrite IH. by destruct (f a).
Qed.

Lemma nunique_spec (xs : list (option string)) (l : list string) :
  NoDup l → (∀ x, x ∈ l ↔ Some x ∈ xs) → nunique xs = length l.
Proof.
  intros Hnd Hin. unfold nunique. apply Permutation_length.
  apply NoDup_Permutation; [apply NoDup_remove_dups|done|].
  intros x. by rewrite elem_of_remove_dups, elem_of_present, Hin.
Qed.

(** Lists with the same present values have the same number of distinct
    values. *)
Lemma nunique_same_elements (xs ys : list (option string)) :
  (∀ x, Some x ∈ xs ↔ Some x ∈ ys) → nunique xs = nunique ys.
Proof.
  intros H. apply nunique_spec; [apply NoDup_remove_dups|].
  intros x. by rewrite elem_of_remove_dups, elem_of_present.
Qed.

Lemma named_columns_mask df df' :
  named_columns <$> df = named_columns <$> df' →
  named_columns <$> mask north_atlantic df
  = named_columns <$> mask north_atlantic df'.
Proof.
  revert df'. induction df as [|r df IH]; intros [|r' df'] H; try done.
  rewrite !fmap_cons in H.
  assert (named_columns r = named_columns r') as Hr by congruence.
  assert (named_columns <$> df = named_columns <$> df') as Ht by congruence.
  specialize (IH _ Ht). unfold mask in *.
  assert (north_atlantic r = north_atlantic r') as Hna.
  { unfold north_atlantic. unfold named_columns in Hr.
    replace (Basin r') with (Basin r) by congruence. done. }
  rewrite !filter_cons, <- Hna. case_decide; [|done].
  rewrite !fmap_cons. congruence.
Qed.

Lemma named_columns_filter
    (p : option string * option Z * option string → Prop)
    `{!∀ c, Decision (p c)} df df' :
  named_columns <$> df = named_columns <$> df' →
  named_columns <$> filter (λ r, p (named_columns r)) df
  = named_columns <$> filter (λ r, p (named_columns r)) df'.
Proof.
  revert df'. induction df as [|r df IH]; intros [|r' df'] Heq; try done.
  rewrite !fmap_cons in Heq.
  assert (named_columns r = named_columns r') as Hr by congruence.
  assert (named_columns <$> df = named_columns <$> df') as Ht by congruence.
  specialize (IH _ Ht).
  rewrite !filter_cons, <- Hr. case_decide; [|done].
  rewrite !fmap_cons. congruence.
Qed.

Lemma cnt_named_columns df df' :
  named_columns <$> df = named_columns <$> df' → cnt df = cnt df'.
Proof.
  intros H%named_columns_mask. rewrite !cnt_unfold. simpl.
  assert (Season <$> mask north_atlantic df = Season <$> mask north_atlantic df')
    as Hs.
  { change Season with ((λ c : option string * option Z * option string, c.1.2)
                        ∘ named_columns).
    by rewrite !list_fmap_compose, H. }
  assert (omap Season (mask north_atlantic df)
          = omap Season (mask north_atlantic df')) as ->.
  { by rewrite !(omap_fmap_id Season), Hs. }
  f_equal. apply list_fmap_ext. intros _ y _. f_equal.
  pose proof (named_columns_filter (λ c, c.1.2 = Some y) _ _ H) as Hf.
  change Serial_Num
    with ((λ c : option string * option Z * option string, c.1.1)
          ∘ named_columns).
  rewrite !list_fmap_compose. f_equal. exact Hf.
Qed.
End pandas_facts.

(** *** Raising and returning *)

Section result_facts.
Context {A B : Type}.

Lemma bind_Ok (m : result A) (f : A → result B) b :
  m ≫= f = Ok b ↔ ∃ a, m = Ok a ∧ f a = Ok b.
Proof.
  destruct m as [a|e]; simpl; split.
  - intros H. by exists a.
  - by intros (a' & [= <-] & H).
  - done.
  - by intros (a' & ? & _).
Qed.

Lemma bind_Raise (m : result A) (f : A → result B) e :
  m ≫= f = Raise e ↔ m = Raise e ∨ ∃ a, m = Ok a ∧ f a = Raise e.
Proof.
  destruct m as [a|e']; simpl; split.
  - intros H. right. by exists a.
  - by intros [?|(a' & [= <-] & H)].
  - intros [= ->]. by left.
  - by intros [[= ->]|(a' & ? & _)].
Qed.
End result_facts.

(** *** The sampling loop *)

Section sampler_facts.
Import PyMC.
Context {chain T : Type}.
Variable step : chain → result chain.
Variable tally : chain → T.
Implicit Types (sch : Schedule) (st : chain) (trace : list T).

(** The trace grows by one entry per retained iteration. *)
Lemma length_loop sch todo i st trace trace' :
  MCMC.loop step tally sch todo i st trace = Ok trace' →
  length trace'
  = (length trace
     + length (filter (λ j, MCMC.retained sch j) (upfrom i todo)))%nat.
Proof.
  revert i st trace. induction todo as [|todo IH]; intros i st trace; simpl.
  - intros [= <-]. lia.
  - intros (st' & _ & H)%bind_Ok. apply IH in H. rewrite H.
    rewrite filter_cons. destruct (MCMC.retained sch i); simpl.
    + rewrite length_app. simpl. lia.
    + lia.
Qed.

(** The loop raises only what a step raised. *)
Lemma loop_Raise sch todo i st trace e :
  MCMC.loop step tally sch todo i st trace = Raise e →
  ∃ st', step st' = Raise e.
Proof.
  revert i st trace. induction todo as [|todo IH]; intros i st trace; simpl.
  - done.
  - intros [H|(st' & _ & H)]%bind_Raise; [by exists st|by eapply IH].
Qed.

(** The loop ends, and returns when no step raises. *)
Lemma loop_Ok sch todo i st trace :
  (∀ st', ∃ st'', step st' = Ok st'') →
  ∃ trace', MCMC.loop step tally sch todo i st trace = Ok trace'.
Proof.
  intros Hstep. revert i st trace.
  induction todo as [|todo IH]; intros i st trace; simpl.
  - by eexists.
  - destruct (Hstep st) as [st' ->]. simpl. apply IH.
Qed.

(** A step that raises within the run makes the loop raise the same. *)
Lemma loop_steps_Raise sch todo i st trace k st' e :
  MCMC.steps step k st = Ok st' → step st' = Raise e → (k < todo)%nat →
  MCMC.loop step tally sch todo i st trace = Raise e.
Proof.
  revert todo i st trace. induction k as [|k IH]; intros todo i st trace.
  - intros [= ->] He Hk. destruct todo as [|todo]; [lia|].
    simpl. by rewrite He.
  - simpl. intros (st1 & Hst1 & Hk)%bind_Ok He Hlt.
    destruct todo as [|todo]; [lia|]. simpl. rewrite Hst1. simpl.
    apply IH; [done|done|lia].
Qed.

Lemma retained_by_schedule :
  length (filter (λ j, MCMC.retained schedule j)
            (upfrom 0 (Z.to_nat (iter schedule)))) = 900%nat.
Proof. vm_compute. reflexivity. Qed.

Lemma length_sample st samples :
  MCMC.sample step tally schedule st = Ok samples → length samples = 900%nat.
Proof.
  unfold MCMC.sample. intros H%length_loop.
  rewrite H, retained_by_schedule. reflexivity.
Qed.
End sampler_facts.

(** *** The script *)

Section notebook_facts.
Import Pandas PyMC.
Context {F chain : Type}.
Implicit Types (L : Library F chain) (g : Globals F) (df : DataFrame).

(** What a run that reaches the last cell has gone through. *)
Lemma notebook_Ok L g :
  notebook L = Ok g →
  ∃ (c : chain) (samples : list (Z * F * F)),
    read_csv L csv_path = Ok (g_df g)
    ∧ g_cnt g = cnt (g_df g)
    ∧ g_years g = index (g_cnt g)
    ∧ g_arr g = values (g_cnt g)
    ∧ getitem (g_years g) 0 = Ok (g_y0 g)
    ∧ getitem (g_years g) (-1) = Ok (g_y1 g)
    ∧ g_model g = model (g_arr g)
    ∧ mcmc_init L (g_model g) = Ok c
    ∧ MCMC.sample (mcmc_step L) (current L) schedule c = Ok samples
    ∧ g_traces g = traces_of samples
    ∧ g_figures g
      = [FigCounts (g_years g) (g_arr g) (g_y0 g, g_y1 g);
         FigChains (g_traces g); FigHistograms (g_y0 g) (g_traces g);
         FigFit (g_years g) (g_arr g) (g_yp g) (g_em g) (g_lm g)
           (g_y0 g, g_y1 g)]
    ∧ ∀ fig, fig ∈ g_figures g → show L fig = Ok ().
Proof.
  unfold notebook. intros H.
  apply bind_Ok in H as (df & Hdf & H).
  apply bind_Ok in H as (y0 & Hy0 & H).
  apply bind_Ok in H as (y1 & Hy1 & H).
  apply bind_Ok in H as ([] & Hf1 & H).
  apply bind_Ok in H as (c & Hc & H).
  apply bind_Ok in H as (samples & Hs & H).
  apply bind_Ok in H as ([] & Hf2 & H).
  apply bind_Ok in H as ([] & Hf3 & H).
  apply bind_Ok in H as ([] & Hf4 & H).
  injection H as <-. simpl. exists c, samples.
  repeat (split; [done|]).
  intros fig Hfig. rewrite !elem_of_cons, elem_of_nil in Hfig.
  destruct Hfig as [->|[->|[->|[->|[]]]]]; done.
Qed.

(** What a run that stops early has met. *)
Lemma notebook_Raise L e :
  notebook L = Raise e →
  read_csv L csv_path = Raise e
  ∨ (e = IndexError
     ∧ ∃ df, read_csv L csv_path = Ok df ∧ index (cnt df) = [])
  ∨ (∃ fig, show L fig = Raise e)
  ∨ (∃ m, mcmc_init L m = Raise e)
  ∨ (∃ c, mcmc_step L c = Raise e).
Proof.
  unfold notebook. intros H.
  apply bind_Raise in H as [H|(df & Hdf & H)]; [by left|]. right.
  apply bind_Raise in H as [H|(y0 & Hy0 & H)].
  { left. rewrite getitem_first in H.
    destruct (index (cnt df)) as [|y ys] eqn:Hi; [|done].
    injection H as <-. split; [done|]. by exists df. }
  apply bind_Raise in H as [H|(y1 & Hy1 & H)].
  { left. rewrite getitem_first in Hy0.
    destruct (index (cnt df)) as [|y ys] eqn:Hi; [done|].
    rewrite getitem_last in H.
    destruct (last (y :: ys)) as [z|] eqn:Hz; [done|].
    by apply last_None in Hz. }
  right.
  apply bind_Raise in H as [H|([] & _ & H)]; [left; by eexists|].
  apply bind_Raise in H as [H|(c & _ & H)]; [right; left; by eexists|].
  apply bind_Raise in H as [H|(samples & _ & H)].
  { right; right. by eapply loop_Raise. }
  apply bind_Raise in H as [H|([] & _ & H)]; [left; by eexists|].
  apply bind_Raise in H as [H|([] & _ & H)]; [left; by eexists|].
  apply bind_Raise in H as [H|([] & _ & H)]; [left; by eexists|].
  done.
Qed.

(** The calls of a run in their order: once the file is read and the
    series has a first and a last year, the first call that raises ends
    the run with what it raised. *)
Lemma notebook_first_failure L e df y0 y1 :
  let years := index (cnt df) in
  let arr := values (cnt df) in
  read_csv L csv_path = Ok df →
  getitem years 0 = Ok y0 → getitem years (-1) = Ok y1 →
  (show L (FigCounts years arr (y0, y1)) = Raise e → notebook L = Raise e)
  ∧ (show L (FigCounts years arr (y0, y1)) = Ok () →
     (mcmc_init L (model arr) = Raise e → notebook L = Raise e)
     ∧ ∀ c, mcmc_init L (model arr) = Ok c →
        (MCMC.sample (mcmc_step L) (current L) schedule c = Raise e →
         notebook L = Raise e)
        ∧ ∀ samples,
           let tr := traces_of samples in
           let yp := add_int _ _ L y0 (mean_int _ _ L (trace_switchpoint tr)) in
           let em := mean _ _ L (trace_early_mean tr) in
           let lm := mean _ _ L (trace_late_mean tr) in
           MCMC.sample (mcmc_step L) (current L) schedule c = Ok samples →
           (show L (FigChains tr) = Raise e → notebook L = Raise e)
           ∧ (show L (FigChains tr) = Ok () →
              (show L (FigHistograms y0 tr) = Raise e → notebook L = Raise e)
              ∧ (show L (FigHistograms y0 tr) = Ok () →
                 show L (FigFit years arr yp em lm (y0, y1)) = Raise e →
                 notebook L = Raise e))).
Proof.
  intros years arr Hdf Hy0 Hy1.
  split; [intros H|intros H1; split; [intros H|intros c Hc; split;
    [intros H|intros samples tr yp em lm Hs; split; [intros H|intros H2; split;
      [intros H|intros H3 H]]]]];
    unfold notebook;
    (apply bind_Raise; right; exists df; split; [exact Hdf|]);
    (apply bind_Raise; right; exists y0; split; [exact Hy0|]);
    (apply bind_Raise; right; exists y1; split; [exact Hy1|]).
  - apply bind_Raise. by left.
  - apply bind_Raise; right; exists (); split; [exact H1|].
    apply bind_Raise. by left.
  - apply bind_Raise; right; exists (); split; [exact H1|].
    apply bind_Raise; right; exists c; split; [exact Hc|].
    apply bind_Raise. by left.
  - apply bind_Raise; right; exists (); split; [exact H1|].
    apply bind_Raise; right; exists c; split; [exact Hc|].
    apply bind_Raise; right; exists samples; split; [exact Hs|].
    apply bind_Raise. by left.
  - apply bind_Raise; right; exists (); split; [exact H1|].
    apply bind_Raise; right; exists c; split; [exact Hc|].
    apply bind_Raise; right; exists samples; split; [exact Hs|].
    apply bind_Raise; right; exists (); split; [exact H2|].
    apply bind_Raise. by left.
  - apply bind_Raise; right; exists (); split; [exact H1|].
    apply bind_Raise; right; exists c; split; [exact Hc|].
    apply bind_Raise; right; exists samples; split; [exact Hs|].
    apply bind_Raise; right; exists (); split; [exact H2|].
    apply bind_Raise; right; exists (); split; [exact H3|].
    apply bind_Raise. by left.
Qed.

(** An empty series ends the run at years[0]. *)
Lemma notebook_empty_series L df :
  read_csv L csv_path = Ok df → index (cnt df) = [] →
  notebook L = Raise IndexError.
Proof.
  intros Hdf Hi. unfold notebook.
  apply bind_Raise. right. exists df. split; [done|].
  apply bind_Raise. left. by rewrite Hi.
Qed.
End notebook_facts.

(** *** The model and the schedule *)

(** C2. The model declares exactly three random variables: a discrete
    uniform switch point on the integers 0..len(arr), both ends included,
    and two exponential rates with beta = 1; and one deterministic, rate,
    whose parents they are and which combines them into the piecewise
    array.  The model handed to the sampler is made of these four nodes
    and the observed node storms. *)
Theorem model_declares_three_random_variables {F chain : Type}
    (L : Library F chain) (arr : list nat) :
  filter (λ n, PyMC.is_random_variable n) (model arr)
  = [PyMC.DiscreteUniform "switchpoint" 0 (Z.of_nat (length arr));
     PyMC.Exponential "early_mean" 1; PyMC.Exponential "late_mean" 1]
  ∧ (∀ x, PyMC.in_support (switchpoint arr) x ↔ 0 ≤ x ≤ Z.of_nat (length arr))
  ∧ filter (λ n, PyMC.is_deterministic n) (model arr)
    = [PyMC.Deterministic "rate"
         [("s", switchpoint arr); ("e", early_mean); ("l", late_mean)] false]
  ∧ (∀ (A : Type) (junk : nat → A) s e l,
       PyMC.in_support (switchpoint arr) s →
       rate junk arr s e l
       = replicate (Z.to_nat s) e ++ replicate (length arr - Z.to_nat s) l)
  ∧ filter (λ n, PyMC.is_observed n) (model arr)
    = [PyMC.Poisson "storms" (rate_node arr) arr true]
  ∧ model arr
    = [switchpoint arr; early_mean; late_mean; rate_node arr; storms arr]
  ∧ NoDup (PyMC.name_of <$> model arr)
  ∧ ∀ g, notebook L = Ok g →
      g_model g = model (g_arr g) ∧ ∃ c, mcmc_init L (model (g_arr g)) = Ok c.
Proof.
  split; [reflexivity|]. split; [done|]. split; [reflexivity|].
  split. { intros A junk s e l Hs. by rewrite rate_segments, clip_id. }
  split; [reflexivity|]. split; [reflexivity|]. split.
  - simpl. apply NoDup_ListNoDup. repeat constructor; simpl; intuition discriminate.
  - intros g (c & samples & H)%notebook_Ok.
    destruct H as (_ & _ & _ & _ & _ & _ & Hm & Hc & _).
    split; [done|]. exists c. by rewrite <- Hm.
Qed.

Lemma model_declares_three_random_variables_witness :
  ∃ g, notebook (Demo.library Demo.disk) = Ok g
       ∧ g_model g = model (g_arr g).
Proof.
  eexists. split; [vm_compute; reflexivity|].
  eapply (model_declares_three_random_variables (Demo.library Demo.disk) []).
  vm_compute; reflexivity.
Defined.

(** C4. The sampler runs once, with iter = 10000, burn = 1000 and
    thin = 10; the trace of each parameter then holds
    (10000 - 1000) / 10 = 900 samples. *)
Theorem sampler_schedule_retains_900 {F chain : Type} (L : Library F chain) :
  schedule = {| PyMC.iter := 10000; PyMC.burn := 1000; PyMC.thin := 10 |}
  ∧ (PyMC.iter schedule - PyMC.burn schedule) / PyMC.thin schedule = 900
  ∧ (∀ c samples,
       MCMC.sample (mcmc_step L) (current L) schedule c = Ok samples →
       length samples = 900%nat)
  ∧ ((∀ c, ∃ c', mcmc_step L c = Ok c') →
     ∀ c, ∃ samples,
       MCMC.sample (mcmc_step L) (current L) schedule c = Ok samples)
  ∧ ∀ g, notebook L = Ok g →
      (∃ c, mcmc_init L (g_model g) = Ok c
            ∧ MCMC.sample (mcmc_step L) (current L) schedule c
              = Ok (zip (zip (trace_switchpoint (g_traces g))
                             (trace_early_mean (g_traces g)))
                        (trace_late_mean (g_traces g))))
      ∧ length (trace_switchpoint (g_traces g)) = 900%nat
      ∧ length (trace_early_mean (g_traces g)) = 900%nat
      ∧ length (trace_late_mean (g_traces g)) = 900%nat.
Proof.
  split; [reflexivity|]. split; [reflexivity|]. split; [|split].
  - intros c samples. apply length_sample.
  - intros Hstep c. by apply loop_Ok.
  - intros g (c & samples & H)%notebook_Ok.
    destruct H as (_ & _ & _ & _ & _ & _ & _ & Hc & Hs & -> & _).
    pose proof (length_sample _ _ _ _ Hs) as Hlen.
    unfold traces_of; simpl. rewrite !length_fmap. split; [|done].
    exists c. split; [done|]. rewrite Hs. f_equal.
    clear. induction samples as [|[[s e] l] samples IH]; [done|].
    rewrite !fmap_cons. simpl. by rewrite <- IH.
Qed.

Lemma sampler_schedule_retains_900_witness :
  ∃ g, notebook (Demo.library Demo.disk) = Ok g
       ∧ length (trace_switchpoint (g_traces g)) = 900%nat.
Proof.
  eexists. split; [vm_compute; reflexivity|].
  eapply (sampler_schedule_retains_900 (Demo.library Demo.disk)).
  vm_compute; reflexivity.
Defined.

(** *** Loading and failing *)

(** C5. The loader reads one CSV file, at the fixed relative path
    data/Allstorms.ibtracs_wmo.v03r05.csv, and uses the columns Basin,
    Season and Serial_Num only; for every Season found among the rows
    whose Basin is ' NA', the count of that year is the number of distinct
    Serial_Num values among those rows of that Season. *)
Theorem loader_counts_distinct_storms {F chain : Type}
    (L : Library F chain) (df : Pandas.DataFrame) :
  csv_path = "data/Allstorms.ibtracs_wmo.v03r05.csv"
  (* the script reads the file at that path: when the read fails, it fails *)
  ∧ (∀ e, read_csv L csv_path = Raise e → notebook L = Raise e)
  (* and no other file *)
  ∧ (∀ fs, fs csv_path = read_csv L csv_path →
       notebook (with_read_csv L fs) = notebook L)
  (* the table and the series of a run are the table read and its counts *)
  ∧ (∀ g, notebook L = Ok g →
       read_csv L csv_path = Ok (g_df g)
       ∧ g_cnt g = cnt (g_df g)
       ∧ g_years g = Pandas.index (cnt (g_df g))
       ∧ g_arr g = Pandas.values (cnt (g_df g)))
  (* the counts of the table read are what the script goes on with *)
  ∧ (∀ y0 y1 e,
       read_csv L csv_path = Ok df →
       getitem (Pandas.index (cnt df)) 0 = Ok y0 →
       getitem (Pandas.index (cnt df)) (-1) = Ok y1 →
       show L (FigCounts (Pandas.index (cnt df)) (Pandas.values (cnt df))
                 (y0, y1)) = Raise e →
       notebook L = Raise e)
  (* only the three named columns matter *)
  ∧ (∀ df', named_columns <$> df' = named_columns <$> df → cnt df' = cnt df)
  (* the count of a year *)
  ∧ ∀ y,
      (∃ r, r ∈ df ∧ Pandas.Basin r = Some " NA" ∧ Pandas.Season r = Some y) →
      ∃ (i : nat) (serials : list string),
        Pandas.index (cnt df) !! i = Some y
        ∧ (∀ j, Pandas.index (cnt df) !! j = Some y → j = i)
        ∧ NoDup serials
        ∧ (∀ x, x ∈ serials ↔
             ∃ r, r ∈ df ∧ Pandas.Basin r = Some " NA"
                  ∧ Pandas.Season r = Some y
                  ∧ Pandas.Serial_Num r = Some x)
        ∧ Pandas.values (cnt df) !! i = Some (length serials).
Proof.
  split; [reflexivity|]. split; [|split; [|split; [|split; [|split]]]].
  - intros e H. unfold notebook. by rewrite H.
  - intros fs Hfs. unfold notebook. simpl. by rewrite Hfs.
  - intros g (c & samples & H)%notebook_Ok.
    destruct H as (Hdf & Hcnt & Hyears & Harr & _).
    split; [done|]. split; [done|]. by rewrite Hyears, Harr, Hcnt.
  - intros y0 y1 e Hdf Hy0 Hy1.
    by destruct (notebook_first_failure L e df y0 y1 Hdf Hy0 Hy1) as [H _].
  - intros df'. apply cnt_named_columns.
  - intros y Hy.
    assert (y ∈ Pandas.index (cnt df)) as [i Hi]%list_elem_of_lookup_1
      by (by apply elem_of_index_cnt_row).
    set (rows := filter (λ r, Pandas.Season r = Some y)
                   (Pandas.mask north_atlantic df)).
    exists i, (remove_dups (omap id (Pandas.Serial_Num <$> rows))).
    split; [done|]. split; [|split; [|split]].
    + intros j Hj. eapply NoDup_lookup; [|done..].
      rewrite index_cnt. apply NoDup_sorted_keys.
    + apply NoDup_remove_dups.
    + intros x.
      rewrite elem_of_remove_dups, elem_of_present, list_elem_of_fmap.
      split.
      * intros (r & Hx & Hr%elem_of_rows_of_year). exists r.
        destruct Hr as (? & ? & ?). done.
      * intros (r & Hr & Hb & Hs & Hx). exists r. split; [done|].
        by apply elem_of_rows_of_year.
    + by rewrite values_cnt, list_lookup_fmap, Hi.
Qed.

Lemma loader_counts_distinct_storms_witness :
  ∃ g, notebook (Demo.library Demo.disk) = Ok g
       ∧ g_cnt g = cnt Demo.table
       ∧ ∃ (i : nat) (serials : list string),
           Pandas.index (g_cnt g) !! i = Some 1951
           ∧ NoDup serials
           ∧ Pandas.values (g_cnt g) !! i = Some (length serials).
Proof.
  destruct (loader_counts_distinct_storms (Demo.library Demo.disk) Demo.table)
    as (_ & _ & _ & Hrun & _ & _ & Hcount).
  destruct (notebook (Demo.library Demo.disk)) as [g|e] eqn:Hnb;
    [|vm_compute in Hnb; discriminate Hnb].
  destruct (Hrun g eq_refl) as (Hread & Hcnt & _).
  change (Ok Demo.table = Ok (g_df g)) in Hread. injection Hread as Hread.
  rewrite <- Hread in Hcnt.
  exists g. split; [reflexivity|]. split; [exact Hcnt|]. rewrite Hcnt.
  destruct (Hcount 1951) as (i & serials & Hi & _ & Hnd & _ & Hv).
  - exists (Demo.storm "1951122N12300" 1951 " NA").
    split; [left|split; reflexivity].
  - exists i, serials. exact (conj Hi (conj Hnd Hv)).
Defined.

(** C6. A failure raised by a library call, such as read_csv on a missing
    or malformed file, reaches the caller as it was raised: nothing in the
    notebook catches, translates, retries or recovers from an error. *)
Theorem exceptions_propagate_unchanged {F chain : Type}
    (L : Library F chain) (e : exn) :
  (* the first call that raises ends the run with what it raised:
     read_csv, *)
  (read_csv L csv_path = Raise e → notebook L = Raise e)
  (* then the indexing of an empty series, *)
  ∧ (∀ df, read_csv L csv_path = Ok df → Pandas.index (cnt df) = [] →
       notebook L = Raise IndexError)
  (* then each figure, the constructor of the sampler and the sampling, *)
  ∧ (∀ df y0 y1,
       let years := Pandas.index (cnt df) in
       let arr := Pandas.values (cnt df) in
       read_csv L csv_path = Ok df →
       getitem years 0 = Ok y0 → getitem years (-1) = Ok y1 →
       (show L (FigCounts years arr (y0, y1)) = Raise e →
        notebook L = Raise e)
       ∧ (show L (FigCounts years arr (y0, y1)) = Ok () →
          (mcmc_init L (model arr) = Raise e → notebook L = Raise e)
          ∧ ∀ c, mcmc_init L (model arr) = Ok c →
             (MCMC.sample (mcmc_step L) (current L) schedule c = Raise e →
              notebook L = Raise e)
             ∧ ∀ samples,
                let tr := traces_of samples in
                let yp :=
                  add_int _ _ L y0 (mean_int _ _ L (trace_switchpoint tr)) in
                let em := mean _ _ L (trace_early_mean tr) in
                let lm := mean _ _ L (trace_late_mean tr) in
                MCMC.sample (mcmc_step L) (current L) schedule c
                = Ok samples →
                (show L (FigChains tr) = Raise e → notebook L = Raise e)
                ∧ (show L (FigChains tr) = Ok () →
                   (show L (FigHistograms y0 tr) = Raise e →
                    notebook L = Raise e)
                   ∧ (show L (FigHistograms y0 tr) = Ok () →
                      show L (FigFit years arr yp em lm (y0, y1)) = Raise e →
                      notebook L = Raise e))))
  (* where the sampling raises what any step of its schedule raised *)
  ∧ (∀ c (k : nat) st,
       Z.of_nat k < PyMC.iter schedule →
       MCMC.steps (mcmc_step L) k c = Ok st → mcmc_step L st = Raise e →
       MCMC.sample (mcmc_step L) (current L) schedule c = Raise e)
  (* what a run ends with was raised by one of these calls, *)
  ∧ (notebook L = Raise e →
       read_csv L csv_path = Raise e
       ∨ (e = IndexError
          ∧ ∃ df, read_csv L csv_path = Ok df ∧ Pandas.index (cnt df) = [])
       ∨ (∃ fig, show L fig = Raise e)
       ∨ (∃ m, mcmc_init L m = Raise e)
       ∨ (∃ c, mcmc_step L c = Raise e))
  (* and a run returns only if every call it made returned *)
  ∧ ∀ g, notebook L = Ok g →
      read_csv L csv_path = Ok (g_df g)
      ∧ (∀ fig, fig ∈ g_figures g → show L fig = Ok ())
      ∧ ∃ c samples,
          mcmc_init L (g_model g) = Ok c
          ∧ MCMC.sample (mcmc_step L) (current L) schedule c = Ok samples.
Proof.
  split; [|split; [|split; [|split; [|split]]]].
  - intros H. unfold notebook. by rewrite H.
  - apply notebook_empty_series.
  - intros df y0 y1. apply notebook_first_failure.
  - intros c k st Hk Hst He. unfold MCMC.sample.
    eapply loop_steps_Raise; [exact Hst|exact He|]. lia.
  - apply notebook_Raise.
  - intros g (c & samples & H)%notebook_Ok.
    destruct H as (Hdf & _ & _ & _ & _ & _ & _ & Hc & Hs & _ & _ & Hfig).
    split; [done|]. split; [done|]. by exists c, samples.
Qed.

Lemma exceptions_propagate_unchanged_witness :
  notebook (Demo.library (λ _, Raise Demo.no_such_file))
  = Raise (LibraryError "No such file or directory")
  ∧ notebook DemoMore.library_without_sampler
    = Raise (LibraryError "ZeroProbability").
Proof.
  split.
  - apply (exceptions_propagate_unchanged
             (Demo.library (λ _, Raise Demo.no_such_file)) Demo.no_such_file).
    reflexivity.
  - destruct (exceptions_propagate_unchanged DemoMore.library_without_sampler
                DemoMore.zero_probability) as (_ & _ & H & _).
    destruct (H Demo.table 1950 1951)
      as (_ & H'); [reflexivity|vm_compute; reflexivity..|].
    destruct (H' eq_refl) as (Hinit & _). apply Hinit. reflexivity.
Defined.




(** * Further properties of the code *)

(** *** The rate array for any switch point *)

(** Whatever integer [s] is, also outside the support of the prior, rate
    returns len(arr) entries, each of them e or l, and nothing of what
    np.empty left in memory: the two slices always meet at one index. *)
Theorem rate_initialised_for_any_switchpoint {A : Type} (junk : nat → A)
    (arr : list nat) (s : Z) (e l : A) :
  length (rate junk arr s e l) = length arr
  ∧ (∀ junk' : nat → A, rate junk' arr s e l = rate junk arr s e l)
  ∧ (∀ i x, rate junk arr s e l !! i = Some x → x = e ∨ x = l)
  ∧ ∃ k : nat, (k ≤ length arr)%nat
      ∧ rate junk arr s e l = replicate k e ++ replicate (length arr - k) l.
Proof.
  split; [apply length_rate|]. split; [|split].
  - intros junk'. by rewrite !rate_segments.
  - intros i x. rewrite rate_segments. intros Hx.
    apply list_elem_of_lookup_2, elem_of_app in Hx.
    destruct Hx as [Hx|Hx]; apply elem_of_replicate in Hx; tauto.
  - exists (NumPy.clip (length arr) s). split; [apply clip_le|].
    apply rate_segments.
Qed.

Lemma rate_initialised_for_any_switchpoint_witness :
  rate (λ _, 5) [3; 1; 4]%nat (-7) 7 9 = rate (λ _, 0) [3; 1; 4]%nat (-7) 7 9.
Proof.
  destruct (rate_initialised_for_any_switchpoint (λ _, 0) [3; 1; 4]%nat
              (-7) 7 9) as (_ & H & _).
  exact (H (λ _, 5)).
Defined.

(** A negative switch point counts from the end, as Python slices do: for
    -len(arr) <= s < 0 the last -s entries are l and the others e. *)
Theorem rate_negative_switchpoint {A : Type} (junk : nat → A)
    (arr : list nat) (s : Z) (e l : A) :
  - Z.of_nat (length arr) ≤ s < 0 →
  rate junk arr s e l
  = replicate (length arr - Z.to_nat (- s)) e ++ replicate (Z.to_nat (- s)) l.
Proof.
  intros Hs. rewrite rate_segments.
  assert (NumPy.clip (length arr) s = (length arr - Z.to_nat (- s))%nat) as ->.
  { unfold NumPy.clip. destruct (Z.ltb_spec s 0); lia. }
  do 2 f_equal. lia.
Qed.

Lemma rate_negative_switchpoint_witness :
  rate (λ _, 0) [3; 1; 4; 1; 5]%nat (-2) 7 9 = [7; 7; 7; 9; 9].
Proof.
  apply (rate_negative_switchpoint (λ _, 0) [3; 1; 4; 1; 5]%nat (-2) 7 9).
  simpl. lia.
Defined.

(** A switch point beyond either end is clamped, it does not raise: from
    len(arr) on the whole array is e, from -len(arr) down it is l. *)
Theorem rate_switchpoint_beyond_the_ends {A : Type} (junk : nat → A)
    (arr : list nat) (s : Z) (e l : A) :
  (Z.of_nat (length arr) ≤ s → rate junk arr s e l = replicate (length arr) e)
  ∧ (s ≤ - Z.of_nat (length arr) →
     rate junk arr s e l = replicate (length arr) l).
Proof.
  split; intros Hs; rewrite rate_segments.
  - assert (NumPy.clip (length arr) s = length arr) as ->.
    { unfold NumPy.clip. destruct (Z.ltb_spec s 0); lia. }
    rewrite Nat.sub_diag. simpl. by rewrite app_nil_r.
  - assert (NumPy.clip (length arr) s = 0%nat) as ->.
    { unfold NumPy.clip. destruct (Z.ltb_spec s 0); lia. }
    simpl. by rewrite Nat.sub_0_r.
Qed.

Lemma rate_switchpoint_beyond_the_ends_witness :
  rate (λ _, 0) [3; 1; 4]%nat 8 7 9 = [7; 7; 7]
  ∧ rate (λ _, 0) [3; 1; 4]%nat (-8) 7 9 = [9; 9; 9].
Proof.
  split.
  - apply (rate_switchpoint_beyond_the_ends (λ _, 0) [3; 1; 4]%nat 8 7 9).
    simpl. lia.
  - apply (rate_switchpoint_beyond_the_ends (λ _, 0) [3; 1; 4]%nat (-8) 7 9).
    simpl. lia.
Defined.

(** *** What the counts depend on *)

Section cnt_facts.
Import Pandas.
Implicit Types (df : DataFrame) (y : Z).

Lemma elem_of_storm_seasons df y (o : option string) :
  (y, o) ∈ storm_seasons df
  ↔ ∃ r, r ∈ df ∧ Basin r = Some " NA" ∧ Season r = Some y ∧ Serial_Num r = o.
Proof.
  unfold storm_seasons. rewrite list_elem_of_omap. split.
  - intros (r & [Hr Hb]%elem_of_mask & H). exists r.
    destruct (Season r) as [y'|]; [|done]. simpl in H.
    injection H as -> ->. done.
  - intros (r & Hr & Hb & Hy & <-). exists r. split; [by apply elem_of_mask|].
    by rewrite Hy.
Qed.

Lemma elem_of_serials df y (x : string) :
  Some x ∈ Serial_Num <$> filter (λ r, Season r = Some y)
                            (mask north_atlantic df)
  ↔ (y, Some x) ∈ storm_seasons df.
Proof.
  rewrite elem_of_storm_seasons, list_elem_of_fmap. split.
  - intros (r & Hx & (Hr & Hb & Hy)%elem_of_rows_of_year). by exists r.
  - intros (r & Hr & Hb & Hy & Hx). exists r. split; [done|].
    by apply elem_of_rows_of_year.
Qed.

Lemma elem_of_index_cnt df y :
  y ∈ index (cnt df) ↔ ∃ o, (y, o) ∈ storm_seasons df.
Proof.
  rewrite elem_of_index_cnt_row. split.
  - intros (r & Hr & Hb & Hy). exists (Serial_Num r).
    apply elem_of_storm_seasons. by exists r.
  - intros (o & (r & Hr & Hb & Hy & _)%elem_of_storm_seasons). by exists r.
Qed.

Lemma length_present {A} (xs : list (option A)) :
  (length (omap id xs) ≤ length xs)%nat.
Proof.
  induction xs as [|[x|] xs IH]; simpl; [done|..].
  - change (list_omap (option A) A id xs) with (omap id xs). lia.
  - change (list_omap (option A) A id xs) with (omap id xs). lia.
Qed.

Lemma elem_of_seasons df y :
  y ∈ omap Season (mask north_atlantic df) ↔ ∃ o, (y, o) ∈ storm_seasons df.
Proof.
  by rewrite <- elem_of_index_cnt, index_cnt, elem_of_sorted_keys,
    elem_of_list_to_set.
Qed.

Lemma elem_of_recorded_storms df y (x : string) :
  (y, x) ∈ recorded_storms df ↔ (y, Some x) ∈ storm_seasons df.
Proof.
  unfold recorded_storms. rewrite list_elem_of_omap. split.
  - intros ([y' o] & Hp & H). destruct o as [x'|]; [|done]. simpl in H.
    by injection H as -> ->.
  - intros H. by exists (y, Some x).
Qed.
End cnt_facts.

(** The counts depend on the table only through the set of (Season,
    Serial_Num) pairs of its ' NA' rows: the order of the rows, repeated
    rows of a storm, the rows of other basins and the other columns play
    no part. *)
Theorem cnt_depends_on_storm_seasons_only (df df' : Pandas.DataFrame) :
  (∀ p, p ∈ storm_seasons df ↔ p ∈ storm_seasons df') →
  cnt df = cnt df'.
Proof.
  intros H.
  assert (Pandas.index (cnt df) = Pandas.index (cnt df')) as Hi.
  { rewrite !index_cnt. f_equal. apply set_eq. intros y.
    rewrite !elem_of_list_to_set, !elem_of_seasons.
    split; intros [o Ho]; exists o; by apply H. }
  assert (Pandas.values (cnt df) = Pandas.values (cnt df')) as Hv.
  { rewrite !values_cnt, Hi. apply list_fmap_ext. intros _ y _.
    apply nunique_same_elements. intros s. by rewrite !elem_of_serials. }
  destruct (cnt df), (cnt df'). simpl in *. by subst.
Qed.

Lemma cnt_depends_on_storm_seasons_only_witness :
  cnt DemoMore.shuffled = cnt Demo.table.
Proof.
  apply cnt_depends_on_storm_seasons_only. intros p.
  assert (storm_seasons DemoMore.shuffled
          = [(1951, Some "1951241N14320"); (1951, Some "1951122N12300");
             (1950, Some "1950230N15301"); (1951, Some "1951241N14320")]) as ->
    by (vm_compute; reflexivity).
  assert (storm_seasons Demo.table
          = [(1951, Some "1951122N12300"); (1950, Some "1950230N15301");
             (1951, Some "1951122N12300"); (1951, Some "1951241N14320")]) as ->
    by (vm_compute; reflexivity).
  rewrite !elem_of_cons, !elem_of_nil. tauto.
Defined.

(** Every year of the series has at least one ' NA' row, and its count is
    at most the number of these rows; the count is 0 exactly when none of
    them has a Serial_Num.  A season without any North Atlantic row is
    missing from [years], not listed with 0. *)
Theorem counts_bounded_by_rows (df : Pandas.DataFrame) (i : nat) (n : nat) :
  Pandas.values (cnt df) !! i = Some n →
  ∃ y, Pandas.index (cnt df) !! i = Some y
       ∧ let rows := filter (λ r, Pandas.Season r = Some y)
                       (Pandas.mask north_atlantic df) in
         (1 ≤ length rows)%nat
         ∧ (n ≤ length rows)%nat
         ∧ (n = 0%nat ↔ ∀ r, r ∈ rows → Pandas.Serial_Num r = None).
Proof.
  rewrite values_cnt, list_lookup_fmap. intros Hn.
  destruct (Pandas.index (cnt df) !! i) as [y|] eqn:Hy; [|done].
  injection Hn as <-. exists y. split; [done|].
  intros rows. subst rows.
  set (rows := filter _ (Pandas.mask north_atlantic df)).
  unfold Pandas.nunique. split; [|split].
  - assert (y ∈ Pandas.index (cnt df)) as (r & Hr)%elem_of_index_cnt_row
      by (by eapply list_elem_of_lookup_2).
    apply elem_of_rows_of_year in Hr. fold rows in Hr.
    destruct rows; [by apply elem_of_nil in Hr|simpl; lia].
  - rewrite <- (length_fmap Pandas.Serial_Num rows).
    etrans; [|apply length_present].
    apply submseteq_length, NoDup_submseteq; [apply NoDup_remove_dups|].
    intros s. by rewrite elem_of_remove_dups.
  - assert (Hds : ∀ s, s ∈ remove_dups (omap id (Pandas.Serial_Num <$> rows))
                       ↔ ∃ r, r ∈ rows ∧ Pandas.Serial_Num r = Some s).
    { intros s. rewrite elem_of_remove_dups, elem_of_present, list_elem_of_fmap.
      split; intros (r & ? & ?); by exists r. }
    destruct (remove_dups (omap id (Pandas.Serial_Num <$> rows)))
      as [|s ds]; simpl; split.
    + intros _ r Hr. destruct (Pandas.Serial_Num r) as [s|] eqn:Hs; [|done].
      exfalso. eapply not_elem_of_nil, Hds. by exists r.
    + done.
    + done.
    + intros Hnone. exfalso.
      destruct (proj1 (Hds s)) as (r & Hr & Hs); [left|].
      rewrite (Hnone r Hr) in Hs. done.
Qed.

Lemma counts_bounded_by_rows_witness :
  ∃ y, Pandas.index (cnt DemoMore.unnumbered) !! 2%nat = Some y
       ∧ ∀ r, r ∈ filter (λ r, Pandas.Season r = Some y)
                    (Pandas.mask north_atlantic DemoMore.unnumbered) →
              Pandas.Serial_Num r = None.
Proof.
  destruct (counts_bounded_by_rows DemoMore.unnumbered 2 0)
    as (y & Hy & _ & _ & H0).
  - vm_compute. reflexivity.
  - exists y. split; [exact Hy|]. by apply H0.
Defined.

Section total_facts.
Import Pandas.

(** A list of pairs splits by first component over any duplicate-free
    list of keys that covers them. *)
Lemma length_by_key (keys : list Z) (ps : list (Z * string)) :
  NoDup keys → (∀ p, p ∈ ps → p.1 ∈ keys) →
  length ps = sum_list ((λ y, length (filter (λ p, p.1 = y) ps)) <$> keys).
Proof.
  intros Hnd. revert ps. induction Hnd as [|y ks Hy Hnd IH]; intros ps Hin.
  - destruct ps as [|p ps]; [done|].
    exfalso. eapply not_elem_of_nil, (Hin p). left.
  - rewrite fmap_cons. simpl.
    rewrite <- (Permutation_length (filter_app_complement (λ p, p.1 = y) ps)).
    rewrite length_app. f_equal.
    rewrite (IH (filter (λ p, ¬ p.1 = y) ps)).
    + f_equal. apply list_fmap_ext. intros j y' Hy'.
      assert (y' ≠ y) as Hne.
      { intros ->. apply Hy. by eapply list_elem_of_lookup_2. }
      rewrite list_filter_filter. f_equal. apply list_filter_iff.
      intros p. split; [tauto|]. intros ->. done.
    + intros p [Hp Hps]%list_elem_of_filter.
      specialize (Hin p Hps). apply elem_of_cons in Hin as [?|?]; done.
Qed.

Lemma length_storms_of_season df y :
  length (filter (λ p, p.1 = y) (remove_dups (recorded_storms df)))
  = nunique (Serial_Num
               <$> filter (λ r, Season r = Some y) (mask north_atlantic df)).
Proof.
  set (ps := filter _ _). rewrite <- (length_fmap snd ps).
  symmetry. apply nunique_spec.
  - apply NoDup_fmap_2_strong.
    + intros [y1 s1] [y2 s2] [H1 _]%list_elem_of_filter
        [H2 _]%list_elem_of_filter. simpl in *. congruence.
    + apply NoDup_filter, NoDup_remove_dups.
  - intros s. rewrite elem_of_serials, <- elem_of_recorded_storms.
    rewrite list_elem_of_fmap. subst ps. split.
    + intros ([y' s'] & -> & [Hy Hp]%list_elem_of_filter). simpl in *.
      subst y'. by rewrite elem_of_remove_dups in Hp.
    + intros Hp. exists (y, s). split; [done|].
      apply list_elem_of_filter. split; [done|].
      by rewrite elem_of_remove_dups.
Qed.
End total_facts.

(** The counts of all years add up to the number of distinct pairs of a
    Season and a Serial_Num, both present, among the ' NA' rows: every
    storm is counted once in each season it is recorded in, however many
    rows it has, and rows without a Season or a Serial_Num add nothing. *)
Theorem counts_add_up_to_the_storms (df : Pandas.DataFrame) :
  sum_list (Pandas.values (cnt df))
  = length (remove_dups (recorded_storms df)).
Proof.
  rewrite values_cnt.
  rewrite (length_by_key (Pandas.index (cnt df))).
  - f_equal. apply list_fmap_ext. intros _ y _.
    symmetry. apply length_storms_of_season.
  - rewrite index_cnt. apply NoDup_sorted_keys.
  - intros [y s] Hp. rewrite elem_of_remove_dups in Hp.
    apply elem_of_index_cnt. exists (Some s).
    by apply elem_of_recorded_storms.
Qed.

(** *** Years and positions *)

Section years_facts.
Import Pandas.

(** In a strictly increasing list of integers, entries k positions apart
    differ by k at least. *)
Lemma StronglySorted_lookup_gap (l : list Z) i k a b :
  StronglySorted Z.lt l → l !! i = Some a → l !! (i + k)%nat = Some b →
  a + Z.of_nat k ≤ b.
Proof.
  intros Hs Ha. revert b. induction k as [|k IH]; intros b Hb.
  - rewrite Nat.add_0_r in Hb. assert (a = b) by congruence. lia.
  - destruct (lookup_lt_is_Some_2 l (i + k)) as [c Hc].
    { apply lookup_lt_Some in Hb. lia. }
    specialize (IH c Hc).
    assert (c < b); [|lia].
    eapply (StronglySorted_lookup_lt l (i + k) (i + S k)); [done..|lia].
Qed.

End years_facts.

(** The notebook turns a switch-point position into a year by adding y0.
    The year at position i of the series is at least y0 + i and at most
    y1 minus the number of positions after i; position and year differ
    by y0 throughout exactly when no season from y0 to y1 is missing,
    that is when len(arr) = y1 - y0 + 1. *)
Theorem year_of_position (df : Pandas.DataFrame) (y0 y1 : Z) :
  let years := Pandas.index (cnt df) in
  getitem years 0 = Ok y0 → getitem years (-1) = Ok y1 →
  (∀ (i : nat) y, years !! i = Some y →
     y0 + Z.of_nat i ≤ y ≤ y1 - (Z.of_nat (length years) - 1 - Z.of_nat i))
  ∧ ((∀ (i : nat) y, years !! i = Some y → y = y0 + Z.of_nat i)
     ↔ Z.of_nat (length years) = y1 - y0 + 1).
Proof.
  intros years. rewrite getitem_first, getitem_last, head_lookup, last_lookup.
  pose proof (index_cnt_increasing df) as Hs. fold years in Hs.
  intros H0 H1.
  destruct (years !! 0%nat) as [z0|] eqn:Hz0; [|done].
  destruct (years !! pred (length years)) as [z1|] eqn:Hz1; [|done].
  simpl in *. injection H0 as ->. injection H1 as ->.
  assert (Hb : ∀ (i : nat) y, years !! i = Some y →
     y0 + Z.of_nat i ≤ y ≤ y1 - (Z.of_nat (length years) - 1 - Z.of_nat i)).
  { intros i y Hy. pose proof (lookup_lt_Some _ _ _ Hy) as Hlt. split.
    - apply (StronglySorted_lookup_gap years 0 i y0 y); done.
    - pose proof (StronglySorted_lookup_gap years i
                    (pred (length years) - i) y y1 Hs Hy) as Hg.
      replace (i + (pred (length years) - i))%nat
        with (pred (length years)) in Hg by lia.
      specialize (Hg Hz1). lia. }
  split; [done|]. split.
  - intros Hall. specialize (Hall _ _ Hz1).
    pose proof (lookup_lt_Some _ _ _ Hz0). lia.
  - intros Hlen i y Hy. specialize (Hb i y Hy). lia.
Qed.

Lemma year_of_position_witness :
  1950 + 1 ≤ 1951
  ≤ 1951 - (Z.of_nat (length (Pandas.index (cnt Demo.table))) - 1 - 1).
Proof.
  destruct (year_of_position Demo.table 1950 1951) as [H _];
    [vm_compute; reflexivity..|].
  apply (H 1%nat 1951). vm_compute. reflexivity.
Defined.

(** For a switch point s that is a position of the series, the rate of a
    year is early_mean exactly when the year is before years[s]: the two
    segments of the array are the years before and from the switch year. *)
Theorem rate_is_early_before_the_switch_year {A : Type} (junk : nat → A)
    (df : Pandas.DataFrame) (s : Z) (e l : A) (i : nat) (y ys : Z) :
  0 ≤ s →
  Pandas.index (cnt df) !! i = Some y →
  Pandas.index (cnt df) !! Z.to_nat s = Some ys →
  rate junk (Pandas.values (cnt df)) s e l !! i
  = Some (if decide (y < ys) then e else l).
Proof.
  intros Hs Hy Hys.
  pose proof (index_cnt_increasing df) as Hinc.
  pose proof (lookup_lt_Some _ _ _ Hy) as Hi.
  pose proof (lookup_lt_Some _ _ _ Hys) as Hlt.
  rewrite <- length_values_cnt in Hi, Hlt.
  rewrite lookup_rate, clip_id by lia. f_equal.
  destruct (decide (i < Z.to_nat s)%nat) as [Hlts|Hges].
  - pose proof (StronglySorted_lookup_lt _ _ _ _ _ Hinc Hy Hys Hlts).
    by rewrite decide_True.
  - rewrite decide_False; [done|].
    destruct (decide (i = Z.to_nat s)) as [->|Hne].
    + assert (y = ys) by congruence. lia.
    + assert (ys < y); [|lia].
      eapply (StronglySorted_lookup_lt _ (Z.to_nat s) i); [done..|lia].
Qed.

Lemma rate_is_early_before_the_switch_year_witness :
  rate (λ _, 0) (Pandas.values (cnt Demo.table)) 1 7 9 !! 0%nat = Some 7.
Proof.
  apply (rate_is_early_before_the_switch_year (λ _, 0) Demo.table 1 7 9 0
           1950 1951); [lia|vm_compute; reflexivity..].
Defined.

(** *** Runs of the script *)

Section run_facts.
Import Pandas.
Context {F chain : Type}.
Implicit Types (L : Library F chain) (df : DataFrame).

Lemma index_cnt_nil df :
  (∀ r, r ∈ df → Basin r ≠ Some " NA") → index (cnt df) = [].
Proof.
  intros Hno. destruct (index (cnt df)) as [|y ys] eqn:Hi; [done|].
  assert (y ∈ index (cnt df)) as (r & Hr & Hb & _)%elem_of_index_cnt_row
    by (rewrite Hi; left).
  by destruct (Hno r Hr).
Qed.

End run_facts.

(** When the file has no row whose Basin is ' NA' (an empty file, other
    basins only, or the basin written without the leading blank), the
    series is empty and the run ends at years[0] with IndexError, before
    any figure is drawn or the sampler is built. *)
Theorem notebook_without_north_atlantic_rows {F chain : Type}
    (L : Library F chain) (df : Pandas.DataFrame) :
  read_csv L csv_path = Ok df →
  (∀ r, r ∈ df → Pandas.Basin r ≠ Some " NA") →
  cnt df = {| Pandas.index := []; Pandas.values := [] |}
  ∧ notebook L = Raise IndexError.
Proof.
  intros Hdf Hno. pose proof (index_cnt_nil df Hno) as Hi. split.
  - pose proof (values_cnt df) as Hv. rewrite Hi in Hv.
    destruct (cnt df). simpl in *. by subst.
  - by apply (notebook_empty_series L df).
Qed.

Lemma notebook_without_north_atlantic_rows_witness :
  notebook (Demo.library DemoMore.elsewhere_disk) = Raise IndexError.
Proof.
  apply (notebook_without_north_atlantic_rows
           (Demo.library DemoMore.elsewhere_disk) DemoMore.elsewhere).
  - reflexivity.
  - intros r Hr. unfold DemoMore.elsewhere in Hr.
    rewrite !elem_of_cons, elem_of_nil in Hr.
    destruct Hr as [->|[->|[]]]; discriminate.
Defined.

(** *** The prime-counting curve *)

Section curve_facts.
Import SymPy.






End curve_facts.



